(** * go-auth-manager: token lifecycle (auth_manager.go)

    A shallow embedding of [auth_manager.go].  The Go file talks to two
    external collaborators, the Redis client and the JWT library; both are
    modelled here as far as [GenerateToken], [DecodeToken] and
    [DestroyToken] observe them:

    - the Redis store is a finite map from keys to entries with an optional
      deadline, threaded explicitly through every call; a network failure of
      a command is an input of the call ([fault]);
    - the JWT parser follows the control flow of [Parser.ParseWithClaims];
      its byte-level primitives (segment decoding, claim validation,
      signature verification) are the fields of the class [JwtPrimitives].

    Time is a [Z]: nanoseconds since the Unix epoch, the reading of
    [time.Now()] at the call. *)

From Stdlib Require Import ZArith NArith Ascii String List Bool Lia.
From stdpp Require Import base option strings gmap.

Local Open Scope string_scope.
Local Open Scope Z_scope.

Set Warnings "-register-all".

(** ** Errors *)

(** Go [error] values that can flow through this package.  The first four are
    the package's own sentinels; [RedisNil] is [redis.Nil]; [OtherError] is
    any other error value of a collaborator (network, random source, JSON);
    [ValidationError] is [*jwt.ValidationError] with its [Inner] error and
    its [Errors] bit field. *)
Inductive error : Type :=
| ErrInvalidToken
| ErrInvalidTokenType
| ErrUnexpectedSigningMethod
| ErrNotFound
| RedisNil
| OtherError (msg : string)
| ValidationError (Inner : option error) (Errors : Z).

(** ** Constants and the data model *)

Definition TokenByteLength : Z := 32.

(** [type TokenType int] with its four [iota] constants. *)
Definition TokenType : Type := Z.
Definition ResetPassword : TokenType := 0.
Definition VerifyEmail : TokenType := 1.
Definition AccessToken : TokenType := 2.
Definition RefreshToken : TokenType := 3.

Record AuthManagerOpts : Type := { PrivateKey : string }.

(** [jwt.StandardClaims]. *)
Record StandardClaims : Type := {
  Audience : string;
  ExpiresAt : Z;
  Id : string;
  IssuedAt : Z;
  Issuer : string;
  NotBefore : Z;
  Subject : string
}.

Definition zeroStandardClaims : StandardClaims :=
  {| Audience := ""; ExpiresAt := 0; Id := ""; IssuedAt := 0;
     Issuer := ""; NotBefore := 0; Subject := "" |}.

(** The zero [time.Time] (January 1, year 1, 00:00 UTC) in Unix nanoseconds. *)
Definition zeroTime : Z := -62135596800 * 1000000000.

Record TokenClaims : Type := {
  UUID : string;
  CreatedAt : Z;
  TokenType_ : TokenType;
  Standard : StandardClaims
}.

(** [&TokenClaims{}] *)
Definition zeroTokenClaims : TokenClaims :=
  {| UUID := ""; CreatedAt := zeroTime; TokenType_ := 0;
     Standard := zeroStandardClaims |}.

(** [NewTokenClaims]; [now] is the reading of [time.Now()]. *)
Definition NewTokenClaims (now : Z) (uuid : string) (tokenType : TokenType)
  : TokenClaims :=
  {| UUID := uuid;
     CreatedAt := now;
     TokenType_ := tokenType;
     Standard := zeroStandardClaims |}.

(** ** The Redis store *)

Module Redis.

(** [redis.KeepTTL] *)
Definition KeepTTL : Z := -1.

(** What a key holds: the bytes written under it and the instant at which
    the key expires, if any. *)
Record Entry : Type := { value : string; deadline : option Z }.

(** The values handed to the client as a command argument, by their Go type:
    a string, a byte slice, or a [*TokenClaims] (possibly nil). *)
Inductive Arg : Type :=
| ArgString (v : string)
| ArgBytes (v : string)
| ArgClaims (v : option TokenClaims).

Definition marshalError : error :=
  OtherError
    "redis: can't marshal *auth_manager.TokenClaims (implement encoding.BinaryMarshaler)".

(** [Writer.WriteArg]: strings and byte slices are written as they are.  A
    [*TokenClaims] is none of the types the client writes and declares no
    [MarshalBinary] (nor does the embedded [jwt.StandardClaims]): the
    argument is refused, for a nil pointer too. *)
Definition WriteArg (v : Arg) : string + error :=
  match v with
  | ArgString b | ArgBytes b => inl b
  | ArgClaims _ => inr marshalError
  end.

(** An entry is visible until its deadline is reached. *)
Definition live (now : Z) (e : Entry) : bool :=
  match deadline e with
  | None => true
  | Some d => now <? d
  end.

Definition lookup (now : Z) (s : gmap string Entry) (key : string)
  : option Entry :=
  match s !! key with
  | Some e => if live now e then Some e else None
  | None => None
  end.

(** [client.Get(ctx, key).Result()]: the value, or [redis.Nil] when the key
    is missing or has expired. *)
Definition Get (fault : option error) (now : Z) (s : gmap string Entry)
    (key : string) : option string * option error :=
  match fault with
  | Some e => (None, Some e)
  | None =>
      match lookup now s key with
      | Some e => (Some (value e), None)
      | None => (None, Some RedisNil)
      end
  end.

(** The time to live the client sends for a positive expiration: whole
    milliseconds, and at least one. *)
Definition timeToLive (expiration : Z) : Z :=
  if expiration <? 1000000 then 1000000
  else expiration / 1000000 * 1000000.

(** [client.Set(ctx, key, value, expiration)]: a positive expiration sets a
    deadline, [KeepTTL] keeps the one of the key being overwritten, any
    other expiration stores the key without expiry.  [fault] stands for
    an error of the connection (the network failed, the context was
    cancelled); with the connection at hand the command is written, and a
    value that [WriteArg] refuses ends it with that error.  Nothing is
    stored in either case. *)
Definition Set_ (fault : option error) (now : Z) (s : gmap string Entry)
    (key : string) (v : Arg) (expiration : Z)
  : gmap string Entry * option error :=
  match fault with
  | Some e => (s, Some e)
  | None =>
      match WriteArg v with
      | inr e => (s, Some e)
      | inl bytes =>
          let d :=
            if 0 <? expiration then Some (now + timeToLive expiration)
            else if expiration =? KeepTTL then
              match lookup now s key with
              | Some e => deadline e
              | None => None
              end
            else None in
          (<[key := {| value := bytes; deadline := d |}]> s, None)
      end
  end.

(** [client.Del(ctx, key)]: removing a missing key is not an error. *)
Definition Del (fault : option error) (s : gmap string Entry) (key : string)
  : gmap string Entry * option error :=
  match fault with
  | Some e => (s, Some e)
  | None => (delete key s, None)
  end.

End Redis.

(** ** The random key generator *)

(** Modelled from the spec: [generateRandomString] is called by
    [GenerateToken] but its body is not part of [auth_manager.go].  Section
    4.1 of the specification gives its contract: [generate(byteLength)]
    returns a random opaque string drawn from a secure random source, or
    signals the error of that source.  The draw itself is an input of the
    model ([draw]): the string and the error the generator hands back. *)
Definition generateRandomString (draw : Z -> string * option error)
    (length : Z) : string * option error :=
  draw length.

(** ** The manager: GenerateToken and DestroyToken *)

Record authManager : Type := { opts : AuthManagerOpts }.

Definition GenerateToken (t : authManager)
    (draw : Z -> string * option error) (fault : option error) (now : Z)
    (s : gmap string Redis.Entry)
    (tokenType : TokenType) (tokenClaims : option TokenClaims) (expr : Z)
  : gmap string Redis.Entry * (string * option error) :=
  let '(token, err) := generateRandomString draw TokenByteLength in
  match err with
  | Some e => (s, ("", Some e))
  | None =>
      let '(s', cmdErr) :=
        Redis.Set_ fault now s token (Redis.ArgClaims tokenClaims) expr in
      match cmdErr with
      | Some e => (s', ("", Some e))
      | None => (s', (token, None))
      end
  end.

Definition DestroyToken (t : authManager) (fault : option error)
    (s : gmap string Redis.Entry) (key : string)
  : gmap string Redis.Entry * option error :=
  let '(s', cmdErr) := Redis.Del fault s key in
  match cmdErr with
  | Some e => (s', Some e)
  | None => (s', None)
  end.

(** ** Calls that may dereference nil *)

(** A Go call either returns or panics (a nil pointer is dereferenced). *)
Inductive outcome (A : Type) : Type :=
| Returned (a : A)
| Panicked.
Arguments Returned {A} a.
Arguments Panicked {A}.

(** ** The JWT library (github.com/golang-jwt/jwt/v4) *)

Module Jwt.

(** The signing methods the library registers, by their Go type. *)
Inductive SigningMethod : Type :=
| SigningMethodHMAC (Name : string)
| SigningMethodRSA (Name : string)
| SigningMethodRSAPSS (Name : string)
| SigningMethodECDSA (Name : string)
| SigningMethodEd25519
| signingMethodNone.

Definition SigningMethodHS256 : SigningMethod := SigningMethodHMAC "HS256".
Definition SigningMethodHS384 : SigningMethod := SigningMethodHMAC "HS384".
Definition SigningMethodHS512 : SigningMethod := SigningMethodHMAC "HS512".

(** [SigningMethod.Alg()] *)
Definition Alg (m : SigningMethod) : string :=
  match m with
  | SigningMethodHMAC n | SigningMethodRSA n
  | SigningMethodRSAPSS n | SigningMethodECDSA n => n
  | SigningMethodEd25519 => "EdDSA"
  | signingMethodNone => "none"
  end.

(** The registry filled by the library's [init] functions. *)
Definition signingMethods : list (string * SigningMethod) :=
  [ ("HS256", SigningMethodHS256); ("HS384", SigningMethodHS384);
    ("HS512", SigningMethodHS512);
    ("RS256", SigningMethodRSA "RS256"); ("RS384", SigningMethodRSA "RS384");
    ("RS512", SigningMethodRSA "RS512");
    ("PS256", SigningMethodRSAPSS "PS256");
    ("PS384", SigningMethodRSAPSS "PS384");
    ("PS512", SigningMethodRSAPSS "PS512");
    ("ES256", SigningMethodECDSA "ES256");
    ("ES384", SigningMethodECDSA "ES384");
    ("ES512", SigningMethodECDSA "ES512");
    ("EdDSA", SigningMethodEd25519);
    ("none", signingMethodNone) ].

Fixpoint assoc {A : Type} (k : string) (l : list (string * A)) : option A :=
  match l with
  | [] => None
  | (k', v) :: l' => if String.eqb k k' then Some v else assoc k l'
  end.

(** [GetSigningMethod(alg)]; [None] is the nil method. *)
Definition GetSigningMethod (alg : string) : option SigningMethod :=
  assoc alg signingMethods.

(** What a JSON header field can hold, as far as the parser looks:
    a string, or anything else. *)
Inductive JsonValue : Type :=
| JString (s : string)
| JOther.

Record Token : Type := {
  Raw : string;
  Method : option SigningMethod;
  Header : gmap string JsonValue;
  Claims : TokenClaims;
  Signature : string;
  Valid : bool
}.

(** The bits of [ValidationError.Errors]. *)
Definition ValidationErrorMalformed : Z := Z.shiftl 1 0.
Definition ValidationErrorUnverifiable : Z := Z.shiftl 1 1.
Definition ValidationErrorSignatureInvalid : Z := Z.shiftl 1 2.
Definition ValidationErrorAudience : Z := Z.shiftl 1 3.
Definition ValidationErrorExpired : Z := Z.shiftl 1 4.
Definition ValidationErrorIssuedAt : Z := Z.shiftl 1 5.
Definition ValidationErrorIssuer : Z := Z.shiftl 1 6.
Definition ValidationErrorNotValidYet : Z := Z.shiftl 1 7.
Definition ValidationErrorId : Z := Z.shiftl 1 8.
Definition ValidationErrorClaimsInvalid : Z := Z.shiftl 1 9.

(** The primitives below the parser.  Byte slices are strings of bytes.
    - [DecodeSegment]: base64url decoding of one segment;
    - [UnmarshalHeader]: [json.Unmarshal(headerBytes, &token.Header)];
    - [DecodeClaims]: the JSON decoding of the claim bytes into the
      [*TokenClaims] passed to the parser (its old and new contents);
    - [ClaimsValid]: [token.Claims.Valid()] when the clock reads [now];
    - [Verify]: [method.Verify(signingString, signature, key)], [None]
      being the nil error. *)
Class JwtPrimitives : Type := {
  DecodeSegment : string -> string + error;
  UnmarshalHeader : string -> gmap string JsonValue + error;
  DecodeClaims : string -> TokenClaims -> TokenClaims + error;
  ClaimsValid : Z -> TokenClaims -> option error;
  Verify : SigningMethod -> string -> string -> option string -> option error
}.

(** [strings.Split(s, ".")] *)
Fixpoint Split (s : string) : list string :=
  match s with
  | EmptyString => [""]
  | String c r =>
      if Ascii.eqb c "."%char then "" :: Split r
      else match Split r with
           | h :: t => String c h :: t
           | [] => [String c ""]
           end
  end.

Definition lowerAscii (c : Ascii.ascii) : Ascii.ascii :=
  let n := Ascii.N_of_ascii c in
  if ((65 <=? n) && (n <=? 90))%N then Ascii.ascii_of_N (n + 32) else c.

Fixpoint ToLower (s : string) : string :=
  match s with
  | EmptyString => EmptyString
  | String c r => String (lowerAscii c) (ToLower r)
  end.

(** [strings.HasPrefix(strings.ToLower(tokenString), "bearer ")] *)
Definition hasBearerPrefix (tokenString : string) : bool :=
  String.prefix "bearer " (ToLower tokenString).

Section Parser.
Context `{JwtPrimitives}.

(** [Parser.ParseUnverified]: the token, the segments and the error. *)
Definition ParseUnverified (tokenString : string) (claims : TokenClaims)
  : option Token * list string * option error :=
  let parts := Split tokenString in
  match parts with
  | [p0; p1; p2] =>
      let token := {| Raw := tokenString; Method := None; Header := ∅;
                      Claims := claims; Signature := ""; Valid := false |} in
      match DecodeSegment p0 with
      | inr e =>
          if hasBearerPrefix tokenString
          then (Some token, parts,
                Some (ValidationError None ValidationErrorMalformed))
          else (Some token, parts,
                Some (ValidationError (Some e) ValidationErrorMalformed))
      | inl headerBytes =>
          match UnmarshalHeader headerBytes with
          | inr e => (Some token, parts,
                      Some (ValidationError (Some e) ValidationErrorMalformed))
          | inl header =>
              let token := {| Raw := Raw token; Method := Method token;
                              Header := header; Claims := Claims token;
                              Signature := Signature token;
                              Valid := Valid token |} in
              match DecodeSegment p1 with
              | inr e => (Some token, parts,
                          Some (ValidationError (Some e)
                                  ValidationErrorMalformed))
              | inl claimBytes =>
                  match DecodeClaims claimBytes claims with
                  | inr e => (Some token, parts,
                              Some (ValidationError (Some e)
                                      ValidationErrorMalformed))
                  | inl claims' =>
                      let token :=
                        {| Raw := Raw token; Method := Method token;
                           Header := Header token; Claims := claims';
                           Signature := Signature token;
                           Valid := Valid token |} in
                      match Header token !! "alg" with
                      | Some (JString method) =>
                          match GetSigningMethod method with
                          | None =>
                              (Some token, parts,
                               Some (ValidationError None
                                       ValidationErrorUnverifiable))
                          | Some m =>
                              (Some {| Raw := Raw token; Method := Some m;
                                       Header := Header token;
                                       Claims := Claims token;
                                       Signature := Signature token;
                                       Valid := Valid token |},
                               parts, None)
                          end
                      | _ => (Some token, parts,
                              Some (ValidationError None
                                      ValidationErrorUnverifiable))
                      end
                  end
              end
          end
      end
  | _ => (None, parts, Some (ValidationError None ValidationErrorMalformed))
  end.

(** [Parser.ParseWithClaims] of the default parser (no [ValidMethods],
    claims validated), with the clock reading [now].  The claims are
    validated before the signature is verified and both errors are merged;
    releases of the library that verify the signature first report another
    error when both checks fail, but an error in the same cases. *)
Definition ParseWithClaims (now : Z) (tokenString : string)
    (claims : TokenClaims)
    (keyFunc : Token -> option string * option error)
  : outcome (option Token * option error) :=
  let '(token, parts, err) := ParseUnverified tokenString claims in
  match err with
  | Some e => Returned (token, Some e)
  | None =>
      match token with
      | None => Panicked
      | Some token =>
          let '(key, err) := keyFunc token in
          match err with
          | Some (ValidationError i f) =>
              Returned (Some token, Some (ValidationError i f))
          | Some e =>
              Returned (Some token,
                        Some (ValidationError (Some e)
                                ValidationErrorUnverifiable))
          | None =>
              let vErr : option error * Z :=
                match ClaimsValid now (Claims token) with
                | None => (None, 0)
                | Some (ValidationError i f) => (i, f)
                | Some e => (Some e, ValidationErrorClaimsInvalid)
                end in
              match parts, Method token with
              | [p0; p1; p2], Some m =>
                  let token := {| Raw := Raw token; Method := Method token;
                                  Header := Header token;
                                  Claims := Claims token;
                                  Signature := p2;
                                  Valid := Valid token |} in
                  let vErr :=
                    match Verify m (p0 ++ "." ++ p1) (Signature token) key with
                    | Some e =>
                        (Some e,
                         Z.lor (snd vErr) ValidationErrorSignatureInvalid)
                    | None => vErr
                    end in
                  if snd vErr =? 0 then
                    Returned (Some {| Raw := Raw token;
                                      Method := Method token;
                                      Header := Header token;
                                      Claims := Claims token;
                                      Signature := Signature token;
                                      Valid := true |}, None)
                  else
                    Returned (Some token,
                              Some (ValidationError (fst vErr) (snd vErr)))
              | _, _ => Panicked
              end
          end
      end
  end.

End Parser.

End Jwt.

(** ** The manager: DecodeToken *)

(** [var TokenEncodingAlgorithm = jwt.SigningMethodHS512] *)
Definition TokenEncodingAlgorithm : Jwt.SigningMethod := Jwt.SigningMethodHS512.

(** The key function [DecodeToken] hands to the parser: the type assertion
    of [token.Method] to the HMAC method type decides. *)
Definition keyFunc (t : authManager) (token : Jwt.Token)
  : option string * option error :=
  match Jwt.Method token with
  | Some (Jwt.SigningMethodHMAC _) => (Some (PrivateKey (opts t)), None)
  | _ => (None, Some ErrUnexpectedSigningMethod)
  end.

(** [DecodeToken].  [tokenClaims] and [jwtToken.Claims] are one object: the
    parser fills the claims it was given, so the claims returned are read off
    the parsed token. *)
Definition DecodeToken `{Jwt.JwtPrimitives} (t : authManager)
    (fault : option error) (now : Z) (s : gmap string Redis.Entry)
    (token : string) (tokenType : TokenType)
  : outcome (option TokenClaims * option error) :=
  let '(_, err) := Redis.Get fault now s token in
  match err with
  | Some e => Returned (None, Some e)
  | None =>
      match Jwt.ParseWithClaims now token zeroTokenClaims (keyFunc t) with
      | Panicked => Panicked
      | Returned (jwtToken, err) =>
          match err with
          | Some _ => Returned (None, Some ErrInvalidToken)
          | None =>
              match jwtToken with
              | None => Panicked
              | Some jwtToken =>
                  let tokenClaims := Jwt.Claims jwtToken in
                  if Jwt.Valid jwtToken then
                    if negb (TokenType_ tokenClaims =? tokenType)
                    then Returned (None, Some ErrInvalidTokenType)
                    else Returned (Some tokenClaims, None)
                  else Returned (Some zeroTokenClaims, Some ErrInvalidToken)
              end
          end
      end
  end.

(** ** Test vectors: an instance of the primitives

    [Vectors.lib] agrees with the library on a handful of real tokens, all
    issued for the claims [{uuid: u1, createdAt: 2024-01-01T00:00:00Z,
    tokenType: 1}] and, where signed, under the key [secret]; it rejects
    every JSON text and every signature outside its tables.  Segment decoding
    is unpadded base64url; claim validation is that of
    [jwt.StandardClaims]. *)

Module Vectors.

(** One double quote. *)
Definition dq : string := String (Ascii.ascii_of_N 34) "".
Definition jstr (s : string) : string := (dq ++ s ++ dq)%string.

Definition b64val (c : Ascii.ascii) : option N :=
  let n := Ascii.N_of_ascii c in
  (if (65 <=? n) && (n <=? 90) then Some (n - 65)
   else if (97 <=? n) && (n <=? 122) then Some (n - 71)
   else if (48 <=? n) && (n <=? 57) then Some (n + 4)
   else if n =? 45 then Some 62
   else if n =? 95 then Some 63
   else None)%N.

Fixpoint b64bytes (s : string) (acc bits : N) : option string :=
  match s with
  | EmptyString => Some EmptyString
  | String c r =>
      match b64val c with
      | None => None
      | Some v =>
          let acc := (acc * 64 + v)%N in
          let bits := (bits + 6)%N in
          if (8 <=? bits)%N then
            let bits' := (bits - 8)%N in
            match b64bytes r (acc mod 2 ^ bits')%N bits' with
            | Some out =>
                Some (String (Ascii.ascii_of_N (acc / 2 ^ bits')%N) out)
            | None => None
            end
          else b64bytes r acc bits
      end
  end.

Definition base64url (seg : string) : string + error :=
  if (N.of_nat (String.length seg) mod 4 =? 1)%N
  then inr (OtherError "illegal base64 data")
  else match b64bytes seg 0 0 with
       | Some out => inl out
       | None => inr (OtherError "illegal base64 data")
       end.

Definition headerJson (alg : string) : string :=
  ("{" ++ jstr "alg" ++ ":" ++ jstr alg ++ ","
       ++ jstr "typ" ++ ":" ++ jstr "JWT" ++ "}")%string.

Definition headerOf (alg : string) : gmap string Jwt.JsonValue :=
  <["alg" := Jwt.JString alg]> (<["typ" := Jwt.JString "JWT"]> ∅).

Definition unmarshalHeader (b : string) : gmap string Jwt.JsonValue + error :=
  match
    Jwt.assoc b (map (fun a => (headerJson a, headerOf a))
                   ["HS512"; "HS256"; "RS256"; "none"])
  with
  | Some h => inl h
  | None => inr (OtherError "invalid character")
  end.

Definition claimsJson : string :=
  ("{" ++ jstr "uuid" ++ ":" ++ jstr "u1" ++ ","
       ++ jstr "createdAt" ++ ":" ++ jstr "2024-01-01T00:00:00Z" ++ ","
       ++ jstr "tokenType" ++ ":1}")%string.

(** 2024-01-01T00:00:00Z *)
Definition createdAt : Z := 1704067200 * 1000000000.

Definition decodeClaims (b : string) (old : TokenClaims)
  : TokenClaims + error :=
  if String.eqb b claimsJson
  then inl {| UUID := "u1"; CreatedAt := createdAt;
              TokenType_ := VerifyEmail; Standard := Standard old |}
  else inr (OtherError "invalid character").

(** [StandardClaims.Valid]: the expiry, issued-at and not-before checks,
    each skipped when its field is zero; the clock is read in seconds. *)
Definition claimsValid (now : Z) (c : TokenClaims) : option error :=
  let sec := now / 1000000000 in
  let sc := Standard c in
  let e1 := if (ExpiresAt sc =? 0) || (sec <? ExpiresAt sc)
            then 0 else Jwt.ValidationErrorExpired in
  let e2 := if (IssuedAt sc =? 0) || (IssuedAt sc <=? sec)
            then e1 else Z.lor e1 Jwt.ValidationErrorIssuedAt in
  let e3 := if (NotBefore sc =? 0) || (NotBefore sc <=? sec)
            then e2 else Z.lor e2 Jwt.ValidationErrorNotValidYet in
  if e3 =? 0 then None
  else Some (ValidationError (Some (OtherError "claims not valid")) e3).

Definition hs512Header : string := "eyJhbGciOiJIUzUxMiIsInR5cCI6IkpXVCJ9".
Definition hs256Header : string := "eyJhbGciOiJIUzI1NiIsInR5cCI6IkpXVCJ9".
Definition rs256Header : string := "eyJhbGciOiJSUzI1NiIsInR5cCI6IkpXVCJ9".
Definition noneHeader : string := "eyJhbGciOiJub25lIiwidHlwIjoiSldUIn0".
Definition claimsSegment : string :=
  "eyJ1dWlkIjoidTEiLCJjcmVhdGVkQXQiOiIyMDI0LTAxLTAxVDAwOjAwOjAwWiIsInRva2VuVHlwZSI6MX0".

(** HMAC-SHA512 and HMAC-SHA256 of the signing strings under [secret]. *)
Definition hs512Signature : string :=
  "cp9IpkDp5Mm3j49hpq5bNsmm_GeHXAZ7BG1KAWzKyEvs0VPGm8wAswc_JZvS6Y7dVn_EcgkD_b5fuz_zu4J41A".
Definition hs256Signature : string :=
  "XgKhl3Kh7ZUe7_JX0zXJwje6kRkGpb0tF1pCj-WHh14".

Definition secret : string := "secret".

Definition signingString (header : string) : string :=
  (header ++ "." ++ claimsSegment)%string.

Definition verify (m : Jwt.SigningMethod) (signing signature : string)
    (key : option string) : option error :=
  match m, key with
  | Jwt.SigningMethodHMAC n, Some k =>
      if String.eqb k secret &&
         ((String.eqb n "HS512" && String.eqb signing (signingString hs512Header)
             && String.eqb signature hs512Signature)
          || (String.eqb n "HS256" && String.eqb signing (signingString hs256Header)
             && String.eqb signature hs256Signature))
      then None
      else Some (OtherError "signature is invalid")
  | Jwt.SigningMethodHMAC _, None => Some (OtherError "key is of invalid type")
  | _, _ => Some (OtherError "signature is invalid")
  end.

Definition lib : Jwt.JwtPrimitives := {|
  Jwt.DecodeSegment := base64url;
  Jwt.UnmarshalHeader := unmarshalHeader;
  Jwt.DecodeClaims := decodeClaims;
  Jwt.ClaimsValid := claimsValid;
  Jwt.Verify := verify
|}.

Definition hs512Token : string :=
  (signingString hs512Header ++ "." ++ hs512Signature)%string.
Definition hs256Token : string :=
  (signingString hs256Header ++ "." ++ hs256Signature)%string.
(** Tokens naming RS256 and none; their third segment is arbitrary. *)
Definition rs256Token : string :=
  (signingString rs256Header ++ "." ++ hs256Signature)%string.
Definition noneToken : string := (signingString noneHeader ++ ".")%string.

Definition manager : authManager := {| opts := {| PrivateKey := secret |} |}.

(** The 32 random bytes 7, 12, 17, ... in padded base64url: a key as the
    generator may draw it. *)
Definition randomKey : string := "BwwRFhsgJSovNDk-Q0hNUldcYWZrcHV6f4SJjpOYnaI=".

Definition drawKey (length : Z) : string * option error := (randomKey, None).
Definition drawFails (length : Z) : string * option error :=
  ("", Some (OtherError "unexpected EOF")).

Definition fiveSeconds : Z := 5 * 1000000000.

(** A store holding [key] for ever. *)
Definition holding (key : string) : gmap string Redis.Entry :=
  <[key := {| Redis.value := ""; Redis.deadline := None |}]> ∅.

End Vectors.

(** ** Notions used to state the properties *)

(** The names under which the HMAC methods are registered. *)
Definition hmacNames : list string := ["HS256"; "HS384"; "HS512"].

(** The algorithm a token string names: the string under [alg] in the header
    the parser reads off the first of its three segments. *)
Definition headerAlg `{Jwt.JwtPrimitives} (tokenString : string)
  : option string :=
  match Jwt.Split tokenString with
  | [p0; _; _] =>
      match Jwt.DecodeSegment p0 with
      | inl headerBytes =>
          match Jwt.UnmarshalHeader headerBytes with
          | inl header =>
              match header !! "alg" with
              | Some (Jwt.JString a) => Some a
              | _ => None
              end
          | inr _ => None
          end
      | inr _ => None
      end
  | _ => None
  end.

Definition isHMACName (a : string) : bool := existsb (String.eqb a) hmacNames.

(** The primitives with another signature verification in place. *)
Definition withVerify (P : Jwt.JwtPrimitives)
    (V : Jwt.SigningMethod -> string -> string -> option string -> option error)
  : Jwt.JwtPrimitives :=
  {| Jwt.DecodeSegment := @Jwt.DecodeSegment P;
     Jwt.UnmarshalHeader := @Jwt.UnmarshalHeader P;
     Jwt.DecodeClaims := @Jwt.DecodeClaims P;
     Jwt.ClaimsValid := @Jwt.ClaimsValid P;
     Jwt.Verify := V |}.

(** The number of dots in a string. *)
Fixpoint dots (s : string) : nat :=
  match s with
  | EmptyString => 0%nat
  | String c r => if Ascii.eqb c "."%char then S (dots r) else dots r
  end.

(** The claims and the error of a call that returned. *)
Definition claimsOf (r : outcome (option TokenClaims * option error))
  : option TokenClaims :=
  match r with
  | Returned (c, _) => c
  | Panicked => None
  end.

Definition errorOf (r : outcome (option TokenClaims * option error))
  : option error :=
  match r with
  | Returned (_, e) => e
  | Panicked => None
  end.

(** A call of one of the three store-backed operations, with what the
    environment contributes to it (the draw, the network fault, the clock). *)
Inductive Call : Type :=
| CallGenerate (draw : Z -> string * option error) (fault : option error)
    (now : Z) (tokenType : TokenType) (tokenClaims : option TokenClaims)
    (expr : Z)
| CallDecode (fault : option error) (now : Z) (token : string)
    (tokenType : TokenType)
| CallDestroy (fault : option error) (key : string).

(** The store after a call. *)
Definition step (t : authManager) (s : gmap string Redis.Entry) (c : Call)
  : gmap string Redis.Entry :=
  match c with
  | CallGenerate draw fault now tokenType tokenClaims expr =>
      fst (GenerateToken t draw fault now s tokenType tokenClaims expr)
  | CallDecode _ _ _ _ => s
  | CallDestroy fault key => fst (DestroyToken t fault s key)
  end.

Definition run (t : authManager) (s : gmap string Redis.Entry)
    (calls : list Call) : gmap string Redis.Entry :=
  fold_left (step t) calls s.

(** The call does not issue [key]: it is not a generation drawing [key]. *)
Definition leaves (key : string) (c : Call) : Prop :=
  match c with
  | CallGenerate draw _ _ _ _ _ =>
      fst (generateRandomString draw TokenByteLength) <> key
  | _ => True
  end.

(** [NewAuthManager]: the manager keeps the options it is given; its Redis
    client is the store threaded through the calls. *)
Definition NewAuthManager (opts : AuthManagerOpts) : authManager :=
  {| opts := opts |}.

(** The error bits the parser takes from the result of [Claims.Valid()]. *)
Definition validationFlags (e : option error) : Z :=
  match e with
  | None => 0
  | Some (ValidationError _ f) => f
  | Some _ => Jwt.ValidationErrorClaimsInvalid
  end.

(** The claims the parser accepts for a token string under the manager's key
    function, if it accepts the string at all. *)
Definition accepted `{Jwt.JwtPrimitives} (t : authManager) (now : Z)
    (token : string) : option TokenClaims :=
  match Jwt.ParseWithClaims now token zeroTokenClaims (keyFunc t) with
  | Returned (Some tk, None) => Some (Jwt.Claims tk)
  | _ => None
  end.

(** What makes a token string valid with claims [c] for the manager [t] when
    the clock reads [now]: three segments; a header that decodes and names an
    algorithm registered as an HMAC method; claims that decode to [c] and
    pass their validation; and a signature over the first two segments that
    verifies with that method under the manager's private key. *)
Definition validToken `{Jwt.JwtPrimitives} (t : authManager) (now : Z)
    (token : string) (c : TokenClaims) : Prop :=
  exists p0 p1 p2 headerBytes header a n claimBytes,
    Jwt.Split token = [p0; p1; p2]
    /\ Jwt.DecodeSegment p0 = inl headerBytes
    /\ Jwt.UnmarshalHeader headerBytes = inl header
    /\ Jwt.DecodeSegment p1 = inl claimBytes
    /\ Jwt.DecodeClaims claimBytes zeroTokenClaims = inl c
    /\ header !! "alg" = Some (Jwt.JString a)
    /\ Jwt.GetSigningMethod a = Some (Jwt.SigningMethodHMAC n)
    /\ validationFlags (Jwt.ClaimsValid now c) = 0
    /\ Jwt.Verify (Jwt.SigningMethodHMAC n) (p0 ++ "." ++ p1) p2
         (Some (PrivateKey (opts t))) = None.

(** The call does not write [key]: it neither issues it nor destroys it. *)
Definition avoids (key : string) (c : Call) : Prop :=
  match c with
  | CallGenerate draw _ _ _ _ _ =>
      fst (generateRandomString draw TokenByteLength) <> key
  | CallDecode _ _ _ _ => True
  | CallDestroy _ k => k <> key
  end.

(** * Properties *)

Example Vectors_hs512Header :
  Vectors.base64url Vectors.hs512Header = inl (Vectors.headerJson "HS512").
Proof. vm_compute. reflexivity. Qed.

Example Vectors_claims :
  Vectors.base64url Vectors.claimsSegment = inl Vectors.claimsJson.
Proof. vm_compute. reflexivity. Qed.

Example Vectors_decode_hs512 :
  @DecodeToken Vectors.lib Vectors.manager None Vectors.createdAt
    (Vectors.holding Vectors.hs512Token) Vectors.hs512Token VerifyEmail
  = Returned (Some {| UUID := "u1"; CreatedAt := Vectors.createdAt;
                      TokenType_ := VerifyEmail;
                      Standard := zeroStandardClaims |}, None).
Proof. vm_compute. reflexivity. Qed.

(** ** The parser *)

Section ParserFacts.
Context `{Jwt.JwtPrimitives}.

Lemma ParseUnverified_ok tokenString claims tok parts :
  Jwt.ParseUnverified tokenString claims = (tok, parts, None) ->
  exists tk m p0 p1 p2,
    tok = Some tk /\ Jwt.Method tk = Some m /\ parts = [p0; p1; p2]
    /\ Jwt.Valid tk = false.
Proof.
  unfold Jwt.ParseUnverified.
  intros Hp. repeat case_match; simplify_eq.
  do 5 eexists. repeat split; reflexivity.
Qed.

Lemma ParseWithClaims_returns now tokenString claims keyFunc :
  exists r, Jwt.ParseWithClaims now tokenString claims keyFunc = Returned r.
Proof.
  unfold Jwt.ParseWithClaims.
  destruct (Jwt.ParseUnverified tokenString claims) as [[tok parts] err] eqn:Hp.
  destruct err as [e|]; [eauto|].
  apply ParseUnverified_ok in Hp as (tk & m & p0 & p1 & p2 & -> & Hm & -> & _).
  destruct (keyFunc tk) as [key err]. rewrite Hm.
  repeat case_match; eauto.
Qed.

Lemma ParseWithClaims_nil_error now tokenString claims keyFunc tok :
  Jwt.ParseWithClaims now tokenString claims keyFunc = Returned (tok, None) ->
  exists tk, tok = Some tk /\ Jwt.Valid tk = true.
Proof.
  unfold Jwt.ParseWithClaims.
  destruct (Jwt.ParseUnverified tokenString claims) as [[tok0 parts] err] eqn:Hp.
  destruct err as [e|]; [discriminate|].
  apply ParseUnverified_ok in Hp as (tk & m & p0 & p1 & p2 & -> & Hm & -> & _).
  destruct (keyFunc tk) as [key err]. rewrite Hm.
  intros Hr. repeat case_match; simplify_eq; eauto.
Qed.

End ParserFacts.

Lemma GetSigningMethod_HMAC a n :
  Jwt.GetSigningMethod a = Some (Jwt.SigningMethodHMAC n) -> isHMACName a = true.
Proof.
  unfold Jwt.GetSigningMethod, Jwt.signingMethods, isHMACName, hmacNames.
  cbn [Jwt.assoc existsb].
  destruct (String.eqb a "HS256"); [reflexivity|].
  destruct (String.eqb a "HS384"); [reflexivity|].
  destruct (String.eqb a "HS512"); [reflexivity|].
  intros Hg. exfalso. revert Hg.
  repeat match goal with
         | |- context [String.eqb a ?k] => destruct (String.eqb a k)
         end; discriminate.
Qed.

Lemma keyFunc_non_HMAC t tok a m :
  Jwt.GetSigningMethod a = Some m -> Jwt.Method tok = Some m ->
  isHMACName a = false ->
  keyFunc t tok = (None, Some ErrUnexpectedSigningMethod).
Proof.
  intros Hg Hm Ha. unfold keyFunc. rewrite Hm.
  destruct m; try reflexivity.
  apply GetSigningMethod_HMAC in Hg. congruence.
Qed.

Section NonHMAC.
Context `{Jwt.JwtPrimitives}.

(** A token naming a non-HMAC algorithm never gets past the key function:
    the parser returns an error. *)
Lemma ParseWithClaims_non_HMAC t now tokenString claims a :
  headerAlg tokenString = Some a -> isHMACName a = false ->
  exists tok e,
    Jwt.ParseWithClaims now tokenString claims (keyFunc t)
    = Returned (tok, Some e).
Proof.
  unfold headerAlg, Jwt.ParseWithClaims, Jwt.ParseUnverified.
  intros Ha Hn.
  destruct (Jwt.Split tokenString) as [|p0 [|p1 [|p2 [|]]]]; try discriminate.
  destruct (Jwt.DecodeSegment p0) as [hb|]; [|discriminate].
  destruct (Jwt.UnmarshalHeader hb) as [h|]; [|discriminate].
  cbn [Jwt.Header].
  destruct (h !! "alg") as [[a'|]|]; simplify_eq.
  destruct (Jwt.DecodeSegment p1) as [cb|]; [|eauto].
  destruct (Jwt.DecodeClaims cb claims) as [c'|]; [|eauto].
  destruct (Jwt.GetSigningMethod a) as [m|] eqn:Hg; [|eauto].
  erewrite keyFunc_non_HMAC by (first [ exact Hg | reflexivity | exact Hn ]).
  eauto.
Qed.

End NonHMAC.

(** ** DecodeToken *)

Section DecodeFacts.
Context `{Jwt.JwtPrimitives}.

(** DecodeToken always returns: none of its dereferences meets nil. *)
Lemma DecodeToken_returns t fault now (s : gmap string Redis.Entry) token tokenType :
  exists c e, DecodeToken t fault now s token tokenType = Returned (c, e).
Proof.
  unfold DecodeToken.
  destruct (Redis.Get fault now s token) as [v [e|]]; [eauto|].
  destruct (Jwt.ParseWithClaims now token zeroTokenClaims (keyFunc t))
    as [[tok err]|] eqn:Hp.
  - destruct err as [e|]; [eauto|].
    apply ParseWithClaims_nil_error in Hp as (tk & -> & ->).
    destruct (negb _); eauto.
  - destruct (ParseWithClaims_returns now token zeroTokenClaims (keyFunc t))
      as [r Hr]. congruence.
Qed.

(** A store error ends the call with that error. *)
Lemma DecodeToken_store_error t fault now (s : gmap string Redis.Entry)
    token tokenType v e :
  Redis.Get fault now s token = (v, Some e) ->
  DecodeToken t fault now s token tokenType = Returned (None, Some e).
Proof. intros Hg. unfold DecodeToken. rewrite Hg. reflexivity. Qed.

(** Once the key is found, the value stored under it plays no part: the
    result is the one obtained with any other store that holds the key. *)
Lemma DecodeToken_ignores_value t now token tokenType
    f1 f2 (s1 s2 : gmap string Redis.Entry) :
  snd (Redis.Get f1 now s1 token) = None ->
  snd (Redis.Get f2 now s2 token) = None ->
  DecodeToken t f1 now s1 token tokenType
  = DecodeToken t f2 now s2 token tokenType.
Proof.
  unfold DecodeToken.
  destruct (Redis.Get f1 now s1 token) as [v1 e1].
  destruct (Redis.Get f2 now s2 token) as [v2 e2].
  cbn [snd]. intros -> ->. reflexivity.
Qed.

(** A key found in the store that does not consist of three dot-separated
    segments is an invalid token. *)
Lemma DecodeToken_not_three_segments t fault now
    (s : gmap string Redis.Entry) token tokenType :
  snd (Redis.Get fault now s token) = None ->
  length (Jwt.Split token) <> 3%nat ->
  DecodeToken t fault now s token tokenType
  = Returned (None, Some ErrInvalidToken).
Proof.
  unfold DecodeToken, Jwt.ParseWithClaims, Jwt.ParseUnverified.
  destruct (Redis.Get fault now s token) as [v e]. cbn [snd]. intros -> Hlen.
  destruct (Jwt.Split token) as [|p0 [|p1 [|p2 [|]]]]; cbn in Hlen;
    first [ reflexivity | lia ].
Qed.

End DecodeFacts.

Lemma Split_length s : length (Jwt.Split s) = S (dots s).
Proof.
  induction s as [|c r IH]; cbn [Jwt.Split dots]; [reflexivity|].
  destruct (Ascii.eqb c "."%char); cbn [length]; [congruence|].
  destruct (Jwt.Split r) as [|h tl]; cbn [length] in *; [discriminate|exact IH].
Qed.

(** ** The store under the manager's calls *)

Lemma Get_absent now (s : gmap string Redis.Entry) key :
  Redis.lookup now s key = None ->
  Redis.Get None now s key = (None, Some RedisNil).
Proof. intros Hl. unfold Redis.Get. rewrite Hl. reflexivity. Qed.

Lemma lookup_absent now (s : gmap string Redis.Entry) key :
  s !! key = None -> Redis.lookup now s key = None.
Proof. intros Hs. unfold Redis.lookup. rewrite Hs. reflexivity. Qed.

Lemma DestroyToken_ok t fault (s s' : gmap string Redis.Entry) key :
  DestroyToken t fault s key = (s', None) ->
  fault = None /\ s' = delete key s.
Proof.
  unfold DestroyToken, Redis.Del. destruct fault; intros Hd; simplify_eq.
  split; reflexivity.
Qed.

(** The error GenerateToken ends with: the generator's, else the
    connection's, else the one of the value that cannot be written. *)
Lemma GenerateToken_fails t draw fault now (s : gmap string Redis.Entry)
    tokenType tokenClaims expr :
  GenerateToken t draw fault now s tokenType tokenClaims expr
  = (s, ("", Some match snd (generateRandomString draw TokenByteLength), fault with
                  | Some e, _ => e
                  | None, Some e => e
                  | None, None => Redis.marshalError
                  end)).
Proof.
  unfold GenerateToken.
  destruct (generateRandomString draw TokenByteLength) as [token [e|]];
    cbn [snd]; [reflexivity|].
  destruct fault; reflexivity.
Qed.

Lemma step_absent t (s : gmap string Redis.Entry) key c :
  s !! key = None -> leaves key c -> step t s c !! key = None.
Proof.
  intros Hs Hc. destruct c as [draw fault now tt tc expr| |fault k]; cbn [step].
  - rewrite GenerateToken_fails. exact Hs.
  - exact Hs.
  - unfold DestroyToken, Redis.Del. destruct fault; cbn [fst]; [exact Hs|].
    destruct (decide (k = key)) as [->|Hne].
    + apply lookup_delete_eq.
    + rewrite lookup_delete_ne by exact Hne. exact Hs.
Qed.

Lemma run_absent t calls : forall (s : gmap string Redis.Entry) key,
  s !! key = None -> Forall (leaves key) calls -> run t s calls !! key = None.
Proof.
  induction calls as [|c calls IH]; intros s key Hs Hall; cbn [run fold_left].
  - exact Hs.
  - inversion Hall as [|? ? Hc Hrest]; subst.
    apply IH; [apply step_absent; assumption | assumption].
Qed.

(** ** The claims *)


(** C2, as amended.  A token whose header names an algorithm outside the HMAC
    family is rejected by DecodeToken, whatever the store holds and whatever
    type is asked for: no claims are returned and the error is not nil. *)
Theorem DecodeToken_rejects_non_HMAC `{Jwt.JwtPrimitives} t fault now
    (s : gmap string Redis.Entry) tokenString tokenType a :
  headerAlg tokenString = Some a ->
  isHMACName a = false ->
  exists e,
    DecodeToken t fault now s tokenString tokenType = Returned (None, Some e).
Proof.
  intros Ha Hn. unfold DecodeToken.
  destruct (Redis.Get fault now s tokenString) as [v [e|]]; [eauto|].
  destruct (ParseWithClaims_non_HMAC t now tokenString zeroTokenClaims a Ha Hn)
    as (tok & e & ->).
  eauto.
Qed.

Lemma DecodeToken_rejects_non_HMAC_witness :
  @headerAlg Vectors.lib Vectors.rs256Token = Some "RS256"
  /\ isHMACName "RS256" = false
  /\ exists e,
       @DecodeToken Vectors.lib Vectors.manager None Vectors.createdAt
         (Vectors.holding Vectors.rs256Token) Vectors.rs256Token VerifyEmail
       = Returned (None, Some e).
Proof.
  split; [vm_compute; reflexivity|]. split; [reflexivity|].
  apply (@DecodeToken_rejects_non_HMAC Vectors.lib Vectors.manager None
           Vectors.createdAt (Vectors.holding Vectors.rs256Token)
           Vectors.rs256Token VerifyEmail "RS256");
    vm_compute; reflexivity.
Defined.

(** C2 as stated fails twice.  A token signed with HS256, which is not the
    configured HS512, under the manager's key is accepted; and a token naming
    RS256 is rejected with ErrInvalidToken, not ErrUnexpectedSigningMethod. *)
Lemma DecodeToken_other_algorithm_counterexample :
  (@headerAlg Vectors.lib Vectors.hs256Token = Some "HS256"
   /\ "HS256" <> Jwt.Alg TokenEncodingAlgorithm
   /\ errorOf (@DecodeToken Vectors.lib Vectors.manager None Vectors.createdAt
                 (Vectors.holding Vectors.hs256Token) Vectors.hs256Token
                 VerifyEmail) = None)
  /\ (@headerAlg Vectors.lib Vectors.rs256Token = Some "RS256"
      /\ "RS256" <> Jwt.Alg TokenEncodingAlgorithm
      /\ errorOf (@DecodeToken Vectors.lib Vectors.manager None Vectors.createdAt
                    (Vectors.holding Vectors.rs256Token) Vectors.rs256Token
                    VerifyEmail) <> Some ErrUnexpectedSigningMethod).
Proof.
  repeat split; try (vm_compute; reflexivity); vm_compute; discriminate.
Qed.

(** C3, as amended.  The key function supplies the key only to methods of the
    HMAC family.  For a token whose header names any algorithm outside that
    family: the key function answers ErrUnexpectedSigningMethod and no key to
    every token carrying the method registered under that name, the parser
    returns an error, and the signature verification has no say in it (the
    parser's result is the same under any other verification function). *)
Theorem keyFunc_refuses_non_HMAC `{P : Jwt.JwtPrimitives} t now tokenString
    claims a :
  headerAlg tokenString = Some a ->
  isHMACName a = false ->
  (forall m tok, Jwt.GetSigningMethod a = Some m -> Jwt.Method tok = Some m ->
                 keyFunc t tok = (None, Some ErrUnexpectedSigningMethod))
  /\ (exists tok e,
        Jwt.ParseWithClaims now tokenString claims (keyFunc t)
        = Returned (tok, Some e))
  /\ (forall V,
        @Jwt.ParseWithClaims (withVerify P V) now tokenString claims (keyFunc t)
        = Jwt.ParseWithClaims now tokenString claims (keyFunc t)).
Proof.
  intros Ha Hn. split; [|split].
  - intros m tok Hg Hm. eapply keyFunc_non_HMAC; eassumption.
  - eapply ParseWithClaims_non_HMAC; eassumption.
  - intros V. revert Ha.
    unfold headerAlg, Jwt.ParseWithClaims, Jwt.ParseUnverified, withVerify.
    cbn [Jwt.DecodeSegment Jwt.UnmarshalHeader Jwt.DecodeClaims Jwt.ClaimsValid
         Jwt.Verify].
    destruct (Jwt.Split tokenString) as [|p0 [|p1 [|p2 [|]]]]; try discriminate.
    destruct (Jwt.DecodeSegment p0) as [hb|]; [|discriminate].
    destruct (Jwt.UnmarshalHeader hb) as [h|]; [|discriminate].
    cbn [Jwt.Header].
    destruct (h !! "alg") as [[a'|]|]; intros Ha; simplify_eq.
    destruct (Jwt.DecodeSegment p1) as [cb|]; [|reflexivity].
    destruct (Jwt.DecodeClaims cb claims) as [c'|]; [|reflexivity].
    destruct (Jwt.GetSigningMethod a) as [m|] eqn:Hg; [|reflexivity].
    erewrite keyFunc_non_HMAC by (first [ exact Hg | reflexivity | exact Hn ]).
    reflexivity.
Qed.

Lemma keyFunc_refuses_non_HMAC_witness :
  @headerAlg Vectors.lib Vectors.noneToken = Some "none"
  /\ isHMACName "none" = false
  /\ (forall m tok, Jwt.GetSigningMethod "none" = Some m ->
                    Jwt.Method tok = Some m ->
                    keyFunc Vectors.manager tok
                    = (None, Some ErrUnexpectedSigningMethod))
  /\ (exists tok e,
        @Jwt.ParseWithClaims Vectors.lib Vectors.createdAt Vectors.noneToken
          zeroTokenClaims (keyFunc Vectors.manager)
        = Returned (tok, Some e))
  /\ (forall V,
        @Jwt.ParseWithClaims (withVerify Vectors.lib V) Vectors.createdAt
          Vectors.noneToken zeroTokenClaims (keyFunc Vectors.manager)
        = @Jwt.ParseWithClaims Vectors.lib Vectors.createdAt Vectors.noneToken
            zeroTokenClaims (keyFunc Vectors.manager)).
Proof.
  split; [vm_compute; reflexivity|]. split; [reflexivity|].
  apply (@keyFunc_refuses_non_HMAC Vectors.lib Vectors.manager Vectors.createdAt
           Vectors.noneToken zeroTokenClaims "none");
    vm_compute; reflexivity.
Defined.

(** C3 as stated fails: the header of this token names HS256, not the
    configured HS512, and the key function supplies the key to it. *)
Lemma keyFunc_HS256_counterexample :
  match @Jwt.ParseUnverified Vectors.lib Vectors.hs256Token zeroTokenClaims with
  | (Some tok, _, None) =>
      @headerAlg Vectors.lib Vectors.hs256Token = Some "HS256"
      /\ Jwt.Method tok = Some Jwt.SigningMethodHS256
      /\ Jwt.SigningMethodHS256 <> TokenEncodingAlgorithm
      /\ keyFunc Vectors.manager tok = (Some Vectors.secret, None)
  | _ => False
  end.
Proof.
  vm_compute. repeat split; discriminate.
Qed.

(** C4, as amended.  For a key absent from the store (never issued,
    destroyed, or past its deadline), DecodeToken returns no claims and hands
    the store's own not-found error, redis.Nil, to the caller as it is. *)
Theorem DecodeToken_absent_key `{Jwt.JwtPrimitives} t now
    (s : gmap string Redis.Entry) key tokenType :
  Redis.lookup now s key = None ->
  DecodeToken t None now s key tokenType = Returned (None, Some RedisNil).
Proof.
  intros Hl. eapply DecodeToken_store_error. apply Get_absent. exact Hl.
Qed.

Lemma DecodeToken_absent_key_witness :
  Redis.lookup Vectors.createdAt (∅ : gmap string Redis.Entry) Vectors.hs512Token
  = None
  /\ @DecodeToken Vectors.lib Vectors.manager None Vectors.createdAt ∅
       Vectors.hs512Token VerifyEmail
     = Returned (None, Some RedisNil).
Proof.
  split; [reflexivity|].
  apply (@DecodeToken_absent_key Vectors.lib Vectors.manager Vectors.createdAt
           ∅ Vectors.hs512Token VerifyEmail).
  reflexivity.
Defined.

(** C4 as stated fails: on the empty store the caller of DecodeToken observes
    redis.Nil, which is not ErrInvalidToken. *)
Lemma DecodeToken_absent_key_counterexample :
  Redis.lookup Vectors.createdAt (∅ : gmap string Redis.Entry) Vectors.hs512Token
  = None
  /\ errorOf (@DecodeToken Vectors.lib Vectors.manager None Vectors.createdAt ∅
                Vectors.hs512Token VerifyEmail)
     <> Some ErrInvalidToken.
Proof.
  split; [reflexivity|]. vm_compute. discriminate.
Qed.


(** C6.  Once DestroyToken(key) has returned without error, DecodeToken of
    that key fails at every later point: after any further calls of the
    manager that do not issue the same key again, at any clock reading, for
    any expected type and whether or not the store answers, no claims are
    returned, and when the store answers the error is its not-found. *)
Theorem DestroyToken_then_DecodeToken `{Jwt.JwtPrimitives} t fault
    (s s' : gmap string Redis.Entry) key calls fault' now tokenType :
  DestroyToken t fault s key = (s', None) ->
  Forall (leaves key) calls ->
  exists e,
    DecodeToken t fault' now (run t s' calls) key tokenType
    = Returned (None, Some e)
    /\ (fault' = None -> e = RedisNil).
Proof.
  intros Hd Hcalls.
  apply DestroyToken_ok in Hd as [_ ->].
  assert (Habs : run t (delete key s) calls !! key = None)
    by (apply run_absent; [apply lookup_delete_eq | exact Hcalls]).
  destruct fault' as [e|].
  - exists e. split; [|discriminate].
    eapply DecodeToken_store_error. reflexivity.
  - exists RedisNil. split; [|reflexivity].
    eapply DecodeToken_store_error. apply Get_absent, lookup_absent. exact Habs.
Qed.

Lemma DestroyToken_then_DecodeToken_witness :
  let s := Vectors.holding Vectors.hs512Token in
  let calls := [ CallDecode None Vectors.createdAt Vectors.hs512Token VerifyEmail;
                 CallGenerate Vectors.drawKey None Vectors.createdAt VerifyEmail
                   None Vectors.fiveSeconds;
                 CallDestroy None Vectors.hs512Token ] in
  DestroyToken Vectors.manager None s Vectors.hs512Token = (∅, None)
  /\ Forall (leaves Vectors.hs512Token) calls
  /\ exists e,
       @DecodeToken Vectors.lib Vectors.manager None Vectors.createdAt
         (run Vectors.manager ∅ calls) Vectors.hs512Token VerifyEmail
       = Returned (None, Some e)
       /\ (@None error = None -> e = RedisNil).
Proof.
  cbv zeta.
  assert (Hd : DestroyToken Vectors.manager None
                 (Vectors.holding Vectors.hs512Token) Vectors.hs512Token
               = (∅, None)).
  { unfold DestroyToken, Redis.Del, Vectors.holding.
    rewrite delete_insert_eq, delete_empty. reflexivity. }
  assert (Hc : Forall (leaves Vectors.hs512Token)
                 [ CallDecode None Vectors.createdAt Vectors.hs512Token VerifyEmail;
                   CallGenerate Vectors.drawKey None Vectors.createdAt
                     VerifyEmail None Vectors.fiveSeconds;
                   CallDestroy None Vectors.hs512Token ]).
  { repeat constructor. vm_compute. discriminate. }
  split; [exact Hd|]. split; [exact Hc|].
  exact (@DestroyToken_then_DecodeToken Vectors.lib Vectors.manager None
           (Vectors.holding Vectors.hs512Token) ∅ Vectors.hs512Token _ None
           Vectors.createdAt VerifyEmail Hd Hc).
Defined.

(** C7.  When the store answers, DestroyToken returns no error for every key,
    present or not; and destroying a key again after it was destroyed
    returns no error and leaves the store as the first call left it. *)
Theorem DestroyToken_idempotent t (s : gmap string Redis.Entry) key :
  snd (DestroyToken t None s key) = None
  /\ fst (DestroyToken t None s key) !! key = None
  /\ DestroyToken t None (fst (DestroyToken t None s key)) key
     = (fst (DestroyToken t None s key), None)
  /\ DestroyToken t None (∅ : gmap string Redis.Entry) key = (∅, None).
Proof.
  unfold DestroyToken, Redis.Del. cbn [fst snd].
  split; [reflexivity|]. split; [apply lookup_delete_eq|].
  split.
  - rewrite delete_delete_eq. reflexivity.
  - rewrite delete_empty. reflexivity.
Qed.

(** C8.  NewTokenClaims returns claims whose subject and token type are the
    arguments, unchanged, whose creation time is the clock reading at the
    call, and whose standard claims are all zero. *)
Theorem NewTokenClaims_fields now uuid tokenType :
  UUID (NewTokenClaims now uuid tokenType) = uuid
  /\ CreatedAt (NewTokenClaims now uuid tokenType) = now
  /\ TokenType_ (NewTokenClaims now uuid tokenType) = tokenType
  /\ Standard (NewTokenClaims now uuid tokenType) = zeroStandardClaims.
Proof. repeat split. Qed.

(** C9.  Whenever DecodeToken returns a nil error, the claims pointer it
    returns is not nil and the claims carry the requested token type. *)
Theorem DecodeToken_nil_error_type `{Jwt.JwtPrimitives} t fault now
    (s : gmap string Redis.Entry) token tokenType c :
  DecodeToken t fault now s token tokenType = Returned (c, None) ->
  exists tokenClaims, c = Some tokenClaims /\ TokenType_ tokenClaims = tokenType.
Proof.
  unfold DecodeToken.
  destruct (Redis.Get fault now s token) as [v [e|]]; [discriminate|].
  destruct (Jwt.ParseWithClaims now token zeroTokenClaims (keyFunc t))
    as [[tok [e|]]|]; try discriminate.
  destruct tok as [tk|]; [|discriminate].
  destruct (Jwt.Valid tk); [|discriminate].
  destruct (TokenType_ (Jwt.Claims tk) =? tokenType) eqn:Ht; cbn [negb];
    intros Hr; simplify_eq.
  eexists. split; [reflexivity|]. apply Z.eqb_eq. exact Ht.
Qed.

Lemma DecodeToken_nil_error_type_witness :
  let c := Some {| UUID := "u1"; CreatedAt := Vectors.createdAt;
                   TokenType_ := VerifyEmail; Standard := zeroStandardClaims |} in
  @DecodeToken Vectors.lib Vectors.manager None Vectors.createdAt
    (Vectors.holding Vectors.hs512Token) Vectors.hs512Token VerifyEmail
  = Returned (c, None)
  /\ exists tokenClaims,
       c = Some tokenClaims /\ TokenType_ tokenClaims = VerifyEmail.
Proof.
  cbv zeta. split; [vm_compute; reflexivity|].
  apply (@DecodeToken_nil_error_type Vectors.lib Vectors.manager None
           Vectors.createdAt (Vectors.holding Vectors.hs512Token)
           Vectors.hs512Token VerifyEmail).
  vm_compute. reflexivity.
Defined.

(** C10.  When the random generator fails, GenerateToken writes nothing: the
    store is returned as it was, with the empty string and the generator's
    own error. *)
Theorem GenerateToken_generator_failure t draw fault now
    (s : gmap string Redis.Entry) tokenType tokenClaims expr token e :
  generateRandomString draw TokenByteLength = (token, Some e) ->
  GenerateToken t draw fault now s tokenType tokenClaims expr
  = (s, ("", Some e)).
Proof.
  intros Hg. unfold GenerateToken. rewrite Hg. reflexivity.
Qed.

Lemma GenerateToken_generator_failure_witness :
  generateRandomString Vectors.drawFails TokenByteLength
  = ("", Some (OtherError "unexpected EOF"))
  /\ GenerateToken Vectors.manager Vectors.drawFails None Vectors.createdAt
       (Vectors.holding Vectors.hs512Token) VerifyEmail None Vectors.fiveSeconds
     = (Vectors.holding Vectors.hs512Token,
        ("", Some (OtherError "unexpected EOF"))).
Proof.
  split; [reflexivity|].
  apply (GenerateToken_generator_failure Vectors.manager Vectors.drawFails None
           Vectors.createdAt (Vectors.holding Vectors.hs512Token) VerifyEmail
           None Vectors.fiveSeconds "" (OtherError "unexpected EOF")).
  reflexivity.
Defined.


(** ** Further properties of the manager *)

Lemma lor_SignatureInvalid f :
  (Z.lor f Jwt.ValidationErrorSignatureInvalid =? 0) = false.
Proof.
  apply Z.eqb_neq. intros Hz. apply Z.lor_eq_0_iff in Hz as [_ Hz].
  discriminate Hz.
Qed.

Section Accepted.
Context `{Jwt.JwtPrimitives}.

Lemma accepted_valid t now token c :
  accepted t now token = Some c -> validToken t now token c.
Proof.
  unfold accepted, validToken, Jwt.ParseWithClaims, Jwt.ParseUnverified.
  destruct (Jwt.Split token) as [|p0 [|p1 [|p2 [|]]]]; try discriminate.
  destruct (Jwt.DecodeSegment p0) as [hb|] eqn:Hh;
    [|destruct (Jwt.hasBearerPrefix token); discriminate].
  destruct (Jwt.UnmarshalHeader hb) as [h|] eqn:Hu; [|discriminate].
  destruct (Jwt.DecodeSegment p1) as [cb|] eqn:Hc; [|discriminate].
  destruct (Jwt.DecodeClaims cb zeroTokenClaims) as [c'|] eqn:Hd; [|discriminate].
  cbn [Jwt.Header].
  destruct (h !! "alg") as [[a|]|] eqn:Ha; try discriminate.
  destruct (Jwt.GetSigningMethod a) as [m|] eqn:Hg; [|discriminate].
  unfold keyFunc. cbn [Jwt.Method Jwt.Claims Jwt.Signature].
  destruct m as [n| | | | |]; try discriminate.
  destruct (Jwt.Verify (Jwt.SigningMethodHMAC n) (p0 ++ "." ++ p1) p2
              (Some (PrivateKey (opts t)))) as [e|] eqn:Hv.
  - cbn [snd]. rewrite lor_SignatureInvalid. discriminate.
  - intros Hacc.
    assert (Hf : validationFlags (Jwt.ClaimsValid now c') = 0 /\ c' = c).
    { unfold validationFlags.
      destruct (Jwt.ClaimsValid now c') as [[| | | | | |i f]|]; cbn [snd] in Hacc;
        match type of Hacc with
        | context [?x =? 0] => destruct (x =? 0) eqn:Hz
        end; cbn [Jwt.Claims] in Hacc; simplify_eq;
        (split; [first [ apply Z.eqb_eq; exact Hz | reflexivity ] | reflexivity]). }
    destruct Hf as [Hf ->].
    exists p0, p1, p2, hb, h, a, n, cb. repeat split; assumption.
Qed.

Lemma valid_accepted t now token c :
  validToken t now token c -> accepted t now token = Some c.
Proof.
  intros (p0 & p1 & p2 & hb & h & a & n & cb
          & Hs & Hh & Hu & Hc & Hd & Ha & Hg & Hf & Hv).
  unfold accepted, Jwt.ParseWithClaims, Jwt.ParseUnverified.
  rewrite Hs, Hh, Hu, Hc, Hd. cbn [Jwt.Header]. rewrite Ha, Hg.
  unfold keyFunc. cbn [Jwt.Method Jwt.Claims Jwt.Signature]. rewrite Hv.
  unfold validationFlags in Hf.
  destruct (Jwt.ClaimsValid now c) as [[| | | | | |i f]|]; cbn [snd];
    try discriminate Hf; try (rewrite Hf); reflexivity.
Qed.

(** Once the key is found, DecodeToken is decided by what the parser accepts
    and by the type comparison. *)
Lemma DecodeToken_found t fault now (s : gmap string Redis.Entry) token tokenType :
  snd (Redis.Get fault now s token) = None ->
  DecodeToken t fault now s token tokenType
  = Returned
      match accepted t now token with
      | Some c => if TokenType_ c =? tokenType
                  then (Some c, None)
                  else (None, Some ErrInvalidTokenType)
      | None => (None, Some ErrInvalidToken)
      end.
Proof.
  unfold DecodeToken, accepted.
  destruct (Redis.Get fault now s token) as [v e]. cbn [snd]. intros ->.
  destruct (Jwt.ParseWithClaims now token zeroTokenClaims (keyFunc t))
    as [[tok [e|]]|] eqn:Hp.
  - destruct tok; reflexivity.
  - apply ParseWithClaims_nil_error in Hp as (tk & -> & ->).
    destruct (TokenType_ (Jwt.Claims tk) =? tokenType); reflexivity.
  - destruct (ParseWithClaims_returns now token zeroTokenClaims (keyFunc t))
      as [r Hr]. congruence.
Qed.

End Accepted.

(** X1.  A manager built from options [o] returns claims with a nil error
    exactly when the key is found in the store, the key read as a token
    string is valid for those claims (three segments, an HMAC algorithm in
    the header, claims that pass validation, a signature that verifies under
    the private key of [o]) and the claims carry the requested type. *)
Theorem DecodeToken_success_iff `{Jwt.JwtPrimitives} o fault now
    (s : gmap string Redis.Entry) token tokenType c :
  DecodeToken (NewAuthManager o) fault now s token tokenType
  = Returned (Some c, None)
  <-> snd (Redis.Get fault now s token) = None
      /\ validToken (NewAuthManager o) now token c
      /\ TokenType_ c = tokenType.
Proof.
  split.
  - intros Hd.
    destruct (Redis.Get fault now s token) as [v [e|]] eqn:Hg.
    + erewrite DecodeToken_store_error in Hd by exact Hg. discriminate.
    + rewrite DecodeToken_found in Hd by (rewrite Hg; reflexivity).
      destruct (accepted (NewAuthManager o) now token) as [c'|] eqn:Ha;
        [|discriminate].
      destruct (TokenType_ c' =? tokenType) eqn:Ht; simplify_eq.
      split; [reflexivity|]. split; [apply accepted_valid; exact Ha|].
      apply Z.eqb_eq. exact Ht.
  - intros (Hg & Hv & Ht).
    rewrite DecodeToken_found by exact Hg.
    rewrite (valid_accepted _ _ _ _ Hv).
    apply Z.eqb_eq in Ht. rewrite Ht. reflexivity.
Qed.

(** X2.  When the store answers, DecodeToken returns ErrInvalidTokenType
    exactly when the key is found and is a valid token whose claims carry a
    type other than the requested one. *)
Theorem DecodeToken_wrong_type_iff `{Jwt.JwtPrimitives} t now
    (s : gmap string Redis.Entry) token tokenType :
  DecodeToken t None now s token tokenType
  = Returned (None, Some ErrInvalidTokenType)
  <-> Redis.lookup now s token <> None
      /\ exists c, validToken t now token c /\ TokenType_ c <> tokenType.
Proof.
  split.
  - intros Hd.
    destruct (Redis.lookup now s token) as [en|] eqn:Hl.
    + rewrite DecodeToken_found in Hd
        by (unfold Redis.Get; rewrite Hl; reflexivity).
      destruct (accepted t now token) as [c|] eqn:Ha; [|discriminate].
      destruct (TokenType_ c =? tokenType) eqn:Ht; [discriminate|].
      split; [discriminate|]. exists c.
      split; [apply accepted_valid; exact Ha | apply Z.eqb_neq; exact Ht].
    + erewrite DecodeToken_store_error in Hd by (apply Get_absent; exact Hl).
      discriminate.
  - intros (Hl & c & Hv & Ht).
    rewrite DecodeToken_found.
    + rewrite (valid_accepted _ _ _ _ Hv).
      apply Z.eqb_neq in Ht. rewrite Ht. reflexivity.
    + unfold Redis.Get. destruct (Redis.lookup now s token);
        [reflexivity | congruence].
Qed.

(** X3.  DecodeToken always returns, in one of four shapes.  A store error
    is handed back with no claims.  Otherwise the result is claims of the
    requested type with a nil error, or no claims with ErrInvalidToken, or no
    claims with ErrInvalidTokenType: claims never come with an error, and an
    error of the parser never reaches the caller under its own name. *)
Theorem DecodeToken_shapes `{Jwt.JwtPrimitives} t fault now
    (s : gmap string Redis.Entry) token tokenType :
  match snd (Redis.Get fault now s token) with
  | Some e => DecodeToken t fault now s token tokenType = Returned (None, Some e)
  | None =>
      (exists c, DecodeToken t fault now s token tokenType
                 = Returned (Some c, None)
                 /\ TokenType_ c = tokenType)
      \/ DecodeToken t fault now s token tokenType
         = Returned (None, Some ErrInvalidToken)
      \/ DecodeToken t fault now s token tokenType
         = Returned (None, Some ErrInvalidTokenType)
  end.
Proof.
  destruct (Redis.Get fault now s token) as [v [e|]] eqn:Hg; cbn [snd].
  - eapply DecodeToken_store_error. exact Hg.
  - rewrite DecodeToken_found by (rewrite Hg; reflexivity).
    destruct (accepted t now token) as [c|]; [|right; left; reflexivity].
    destruct (TokenType_ c =? tokenType) eqn:Ht.
    + left. exists c. split; [reflexivity | apply Z.eqb_eq; exact Ht].
    + right; right; reflexivity.
Qed.

(** X4.  A token that DecodeToken accepts for one type is answered with
    ErrInvalidTokenType for every other type, in the same store and at the
    same clock reading. *)
Theorem DecodeToken_other_type `{Jwt.JwtPrimitives} t fault now
    (s : gmap string Redis.Entry) token tokenType tokenType' c :
  DecodeToken t fault now s token tokenType = Returned (Some c, None) ->
  tokenType' <> tokenType ->
  DecodeToken t fault now s token tokenType'
  = Returned (None, Some ErrInvalidTokenType).
Proof.
  intros Hd Hne.
  destruct (Redis.Get fault now s token) as [v [e|]] eqn:Hg.
  - erewrite DecodeToken_store_error in Hd by exact Hg. discriminate.
  - rewrite DecodeToken_found in Hd |- * by (rewrite Hg; reflexivity).
    destruct (accepted t now token) as [c'|]; [|discriminate].
    destruct (TokenType_ c' =? tokenType) eqn:Ht; [|discriminate].
    apply Z.eqb_eq in Ht.
    destruct (TokenType_ c' =? tokenType') eqn:Ht'; [|reflexivity].
    apply Z.eqb_eq in Ht'. congruence.
Qed.

Lemma DecodeToken_other_type_witness :
  let c := {| UUID := "u1"; CreatedAt := Vectors.createdAt;
              TokenType_ := VerifyEmail; Standard := zeroStandardClaims |} in
  @DecodeToken Vectors.lib Vectors.manager None Vectors.createdAt
    (Vectors.holding Vectors.hs512Token) Vectors.hs512Token VerifyEmail
  = Returned (Some c, None)
  /\ ResetPassword <> VerifyEmail
  /\ @DecodeToken Vectors.lib Vectors.manager None Vectors.createdAt
       (Vectors.holding Vectors.hs512Token) Vectors.hs512Token ResetPassword
     = Returned (None, Some ErrInvalidTokenType).
Proof.
  cbv zeta. split; [vm_compute; reflexivity|]. split; [discriminate|].
  apply (@DecodeToken_other_type Vectors.lib Vectors.manager None
           Vectors.createdAt (Vectors.holding Vectors.hs512Token)
           Vectors.hs512Token VerifyEmail ResetPassword
           {| UUID := "u1"; CreatedAt := Vectors.createdAt;
              TokenType_ := VerifyEmail; Standard := zeroStandardClaims |}).
  - vm_compute. reflexivity.
  - discriminate.
Defined.

Lemma DecodeToken_success_iff_witness :
  let c := {| UUID := "u1"; CreatedAt := Vectors.createdAt;
              TokenType_ := VerifyEmail; Standard := zeroStandardClaims |} in
  @DecodeToken Vectors.lib (NewAuthManager {| PrivateKey := Vectors.secret |})
    None Vectors.createdAt (Vectors.holding Vectors.hs512Token)
    Vectors.hs512Token VerifyEmail
  = Returned (Some c, None).
Proof.
  cbv zeta.
  apply (proj2 (@DecodeToken_success_iff Vectors.lib
                  {| PrivateKey := Vectors.secret |} None Vectors.createdAt
                  (Vectors.holding Vectors.hs512Token) Vectors.hs512Token
                  VerifyEmail _)).
  split; [vm_compute; reflexivity|]. split; [|reflexivity].
  exists Vectors.hs512Header, Vectors.claimsSegment, Vectors.hs512Signature,
    (Vectors.headerJson "HS512"), (Vectors.headerOf "HS512"), "HS512", "HS512",
    Vectors.claimsJson.
  repeat split; vm_compute; reflexivity.
Defined.

Lemma DecodeToken_wrong_type_iff_witness :
  Redis.lookup Vectors.createdAt (Vectors.holding Vectors.hs512Token)
    Vectors.hs512Token <> None
  /\ exists c, @validToken Vectors.lib Vectors.manager Vectors.createdAt
                 Vectors.hs512Token c
               /\ TokenType_ c <> RefreshToken.
Proof.
  apply (proj1 (@DecodeToken_wrong_type_iff Vectors.lib Vectors.manager
                  Vectors.createdAt (Vectors.holding Vectors.hs512Token)
                  Vectors.hs512Token RefreshToken)).
  vm_compute. reflexivity.
Defined.

Lemma GetSigningMethod_isHMAC a m :
  Jwt.GetSigningMethod a = Some m -> isHMACName a = true ->
  exists n, m = Jwt.SigningMethodHMAC n.
Proof.
  unfold isHMACName, hmacNames. cbn [existsb].
  destruct (String.eqb_spec a "HS256") as [->|_];
    [intros [= <-] _; eexists; reflexivity|].
  destruct (String.eqb_spec a "HS384") as [->|_];
    [intros [= <-] _; eexists; reflexivity|].
  destruct (String.eqb_spec a "HS512") as [->|_];
    [intros [= <-] _; eexists; reflexivity|].
  intros _ Hf. discriminate Hf.
Qed.

(** X5.  The key function decides by the family of the algorithm alone: for
    a token carrying the method registered under a name, it supplies the
    manager's private key when the name is HS256, HS384 or HS512, and refuses
    with ErrUnexpectedSigningMethod for every other registered name. *)
Theorem keyFunc_by_algorithm t tok a m :
  Jwt.GetSigningMethod a = Some m ->
  Jwt.Method tok = Some m ->
  keyFunc t tok
  = if isHMACName a then (Some (PrivateKey (opts t)), None)
    else (None, Some ErrUnexpectedSigningMethod).
Proof.
  intros Hg Hm. destruct (isHMACName a) eqn:Ha.
  - destruct (GetSigningMethod_isHMAC a m Hg Ha) as [n ->].
    unfold keyFunc. rewrite Hm. reflexivity.
  - eapply keyFunc_non_HMAC; eassumption.
Qed.

Lemma keyFunc_by_algorithm_witness :
  let tok := {| Jwt.Raw := ""; Jwt.Method := Some Jwt.SigningMethodHS384;
                Jwt.Header := ∅; Jwt.Claims := zeroTokenClaims;
                Jwt.Signature := ""; Jwt.Valid := false |} in
  Jwt.GetSigningMethod "HS384" = Some Jwt.SigningMethodHS384
  /\ Jwt.Method tok = Some Jwt.SigningMethodHS384
  /\ keyFunc Vectors.manager tok
     = if isHMACName "HS384" then (Some (PrivateKey (opts Vectors.manager)), None)
       else (None, Some ErrUnexpectedSigningMethod).
Proof.
  cbv zeta. split; [reflexivity|]. split; [reflexivity|].
  apply (keyFunc_by_algorithm Vectors.manager _ "HS384" Jwt.SigningMethodHS384);
    reflexivity.
Defined.

(** X6.  GenerateToken never issues a key.  Whatever the generator draws,
    whatever the claims, the duration and the state of the store, it returns
    the empty string and an error and leaves the store as it was: the
    generator's error if the draw failed, else the error of the connection
    if there is one, else the error of the client, which cannot write a
    [*TokenClaims] as a value. *)
Theorem GenerateToken_never_issues t draw fault now
    (s : gmap string Redis.Entry) tokenType tokenClaims expr :
  fst (GenerateToken t draw fault now s tokenType tokenClaims expr) = s
  /\ fst (snd (GenerateToken t draw fault now s tokenType tokenClaims expr)) = ""
  /\ snd (snd (GenerateToken t draw fault now s tokenType tokenClaims expr))
     = Some match snd (generateRandomString draw TokenByteLength), fault with
            | Some e, _ => e
            | None, Some e => e
            | None, None => Redis.marshalError
            end.
Proof.
  unfold GenerateToken, Redis.Set_, Redis.WriteArg.
  destruct (generateRandomString draw TokenByteLength) as [token [e|]];
    cbn [snd fst]; [repeat split|].
  destruct fault; repeat split.
Qed.

Lemma step_avoids t (s : gmap string Redis.Entry) key c :
  avoids key c -> step t s c !! key = s !! key.
Proof.
  intros Hc. destruct c as [draw fault now tt tc expr| |fault k]; cbn [step].
  - rewrite GenerateToken_fails. reflexivity.
  - reflexivity.
  - unfold DestroyToken, Redis.Del. cbn [avoids] in Hc.
    destruct fault; cbn [fst]; [reflexivity|].
    apply lookup_delete_ne. exact Hc.
Qed.

Lemma run_avoids t calls : forall (s : gmap string Redis.Entry) key,
  Forall (avoids key) calls -> run t s calls !! key = s !! key.
Proof.
  induction calls as [|c calls IH]; intros s key Hall; cbn [run fold_left].
  - reflexivity.
  - inversion Hall as [|? ? Hc Hrest]; subst.
    etransitivity; [apply IH; exact Hrest | apply step_avoids; exact Hc].
Qed.

(** X9.  Tokens do not interfere.  Calls of the manager that neither issue
    nor destroy a given key (generations drawing other keys, decodings of any
    key, destructions of other keys, failed or not) leave the answer of
    DecodeToken for that key as it was. *)
Theorem DecodeToken_after_other_calls `{Jwt.JwtPrimitives} t fault now
    (s : gmap string Redis.Entry) calls key tokenType :
  Forall (avoids key) calls ->
  DecodeToken t fault now (run t s calls) key tokenType
  = DecodeToken t fault now s key tokenType.
Proof.
  intros Hall. unfold DecodeToken, Redis.Get, Redis.lookup.
  rewrite (run_avoids t calls s key Hall). reflexivity.
Qed.

Lemma DecodeToken_after_other_calls_witness :
  let s := Vectors.holding Vectors.hs512Token in
  let calls := [ CallGenerate Vectors.drawKey None Vectors.createdAt
                   ResetPassword None Vectors.fiveSeconds;
                 CallDecode None Vectors.createdAt Vectors.hs512Token VerifyEmail;
                 CallDestroy None Vectors.randomKey;
                 CallDestroy None Vectors.hs256Token ] in
  Forall (avoids Vectors.hs512Token) calls
  /\ @DecodeToken Vectors.lib Vectors.manager None Vectors.createdAt
       (run Vectors.manager s calls) Vectors.hs512Token VerifyEmail
     = @DecodeToken Vectors.lib Vectors.manager None Vectors.createdAt s
         Vectors.hs512Token VerifyEmail.
Proof.
  cbv zeta.
  assert (Hc : Forall (avoids Vectors.hs512Token)
                 [ CallGenerate Vectors.drawKey None Vectors.createdAt
                     ResetPassword None Vectors.fiveSeconds;
                   CallDecode None Vectors.createdAt Vectors.hs512Token
                     VerifyEmail;
                   CallDestroy None Vectors.randomKey;
                   CallDestroy None Vectors.hs256Token ]).
  { repeat constructor; vm_compute; discriminate. }
  split; [exact Hc|].
  exact (@DecodeToken_after_other_calls Vectors.lib Vectors.manager None
           Vectors.createdAt (Vectors.holding Vectors.hs512Token) _
           Vectors.hs512Token VerifyEmail Hc).
Defined.

(** X11.  The value stored under a key plays no part in DecodeToken:
    replacing it, with the deadline kept, does not change the answer for
    that key. *)
Theorem DecodeToken_stored_value_irrelevant `{Jwt.JwtPrimitives} t fault now
    (s : gmap string Redis.Entry) token tokenType v1 v2 d :
  DecodeToken t fault now
    (<[token := {| Redis.value := v1; Redis.deadline := d |}]> s)
    token tokenType
  = DecodeToken t fault now
      (<[token := {| Redis.value := v2; Redis.deadline := d |}]> s)
      token tokenType.
Proof.
  unfold DecodeToken, Redis.Get, Redis.lookup, Redis.live.
  rewrite !lookup_insert_eq. cbn [Redis.deadline].
  destruct fault; [reflexivity|].
  destruct d as [d|]; [destruct (now <? d)|]; reflexivity.
Qed.

(** X12.  A key found in the store that does not hold exactly two dots (the
    empty string among them) is answered with no claims and ErrInvalidToken,
    whatever the JWT primitives, the clock and the expected type. *)
Theorem DecodeToken_malformed_key `{Jwt.JwtPrimitives} t fault now
    (s : gmap string Redis.Entry) token tokenType :
  snd (Redis.Get fault now s token) = None ->
  dots token <> 2%nat ->
  DecodeToken t fault now s token tokenType
  = Returned (None, Some ErrInvalidToken).
Proof.
  intros Hg Hd. apply DecodeToken_not_three_segments; [exact Hg|].
  rewrite Split_length. lia.
Qed.

Lemma DecodeToken_malformed_key_witness :
  snd (Redis.Get None 0 (Vectors.holding "") "") = None
  /\ dots "" <> 2%nat
  /\ @DecodeToken Vectors.lib Vectors.manager None 0 (Vectors.holding "") ""
       AccessToken
     = Returned (None, Some ErrInvalidToken).
Proof.
  split; [vm_compute; reflexivity|]. split; [discriminate|].
  apply (@DecodeToken_malformed_key Vectors.lib Vectors.manager None 0
           (Vectors.holding "") "" AccessToken);
    [vm_compute; reflexivity | discriminate].
Defined.

(** X13.  An error of the store is handed to the caller as it is by all
    three operations: GenerateToken returns it with the empty string even
    though a key was drawn, DecodeToken returns it with no claims, and
    DestroyToken returns it. *)
Theorem store_errors_propagated `{Jwt.JwtPrimitives} t draw now
    (s : gmap string Redis.Entry) tokenType tokenClaims expr token key e :
  generateRandomString draw TokenByteLength = (token, None) ->
  snd (GenerateToken t draw (Some e) now s tokenType tokenClaims expr)
  = ("", Some e)
  /\ DecodeToken t (Some e) now s key tokenType = Returned (None, Some e)
  /\ snd (DestroyToken t (Some e) s key) = Some e.
Proof.
  intros Hg. unfold GenerateToken. rewrite Hg.
  repeat split; reflexivity.
Qed.

Lemma store_errors_propagated_witness :
  generateRandomString Vectors.drawKey TokenByteLength
  = (Vectors.randomKey, None)
  /\ snd (GenerateToken Vectors.manager Vectors.drawKey
            (Some (OtherError "i/o timeout")) 0 ∅ VerifyEmail None
            Vectors.fiveSeconds)
     = ("", Some (OtherError "i/o timeout"))
  /\ @DecodeToken Vectors.lib Vectors.manager (Some (OtherError "i/o timeout"))
       0 ∅ Vectors.hs512Token VerifyEmail
     = Returned (None, Some (OtherError "i/o timeout"))
  /\ snd (DestroyToken Vectors.manager (Some (OtherError "i/o timeout")) ∅
            Vectors.hs512Token)
     = Some (OtherError "i/o timeout").
Proof.
  split; [reflexivity|].
  apply (@store_errors_propagated Vectors.lib Vectors.manager Vectors.drawKey 0
           ∅ VerifyEmail None Vectors.fiveSeconds Vectors.randomKey
           Vectors.hs512Token (OtherError "i/o timeout")).
  reflexivity.
Defined.
